(** * The SHL API client: a shallow embedding of custom_components/shl/api.py

    The client is an authenticated HTTP wrapper.  Its methods are embedded as
    computations in a monad that threads the client object and a trace of the
    observable events (requests handed to the HTTP session, records written to
    the logger) and that may raise a Python exception.  The HTTP session and
    the wall clock are external: they are section variables, so every result
    holds for every behaviour of the network and at every instant. *)

From stdpp Require Import base strings gmap list pretty.
From Stdlib Require Import ZArith DecimalString.

Open Scope Z_scope.

#[local] Set Warnings "-register-all".

(** ** Constants (const.py and the head of api.py) *)

Definition NAME : string := "SHL".
Definition VERSION : string := "0.0.1".
Definition TIMEOUT : Z := 10.
Definition BASE_URL : string := "https://openapi.shl.se".
Definition AUTH : string := "/oauth2/token".

(** String-keyed dictionaries of strings: header sets, query parameters and
    form bodies. *)
Abbreviation dict := (gmap string string).

Definition HEADERS : dict :=
  {[ "Content-type" := "application/json; charset=UTF-8";
     "User-Agent" := NAME +:+ "/" +:+ VERSION ]}.

(** ** Python values

    The values that flow through the client untyped: what [response.json()]
    yields, what [api_wrapper] returns, and the operands of the truth tests.
    A float is the binary fraction [mantissa * 2 ^ exponent]; a JSON object
    keeps its items in order. *)

Inductive pyval : Type :=
| PyNone
| PyBool (b : bool)
| PyInt (n : Z)
| PyFloat (mantissa exponent : Z)
| PyStr (s : string)
| PyList (l : list pyval)
| PyDict (d : list (string * pyval))
| PyMethod (name : string).

(** Python's truth test ([bool(v)]): [None], [False], zero and the empty
    containers are false; a bound method is an object without [__bool__] or
    [__len__], hence true. *)
Definition truthy (v : pyval) : bool :=
  match v with
  | PyNone => false
  | PyBool b => b
  | PyInt n => negb (n =? 0)
  | PyFloat m _ => negb (m =? 0)
  | PyStr s => negb (String.eqb s "")
  | PyList l => match l with [] => false | _ => true end
  | PyDict d => match d with [] => false | _ => true end
  | PyMethod _ => true
  end.

Definition dict_truthy (d : dict) : bool := bool_decide (d ≠ ∅).

Definition list_truthy {A} (l : list A) : bool :=
  match l with [] => false | _ => true end.

(** ** Exceptions

    The classes the client names in its [except] clauses, with the part of the
    class tree that decides which clause catches what.  [ServerTimeoutError]
    is aiohttp's class deriving from both [ClientError] and
    [asyncio.TimeoutError]; [CancelledError] derives from [BaseException]
    only; [OtherException] is any further class that derives from [Exception]
    directly. *)

Inductive pyclass : Type :=
| BaseException
| Exception
| CancelledError
| TimeoutError
| KeyError
| TypeError
| AttributeError
| ValueError
| ClientError
| ServerTimeoutError
| gaierror
| OtherException (name : string).

#[global] Instance pyclass_eq_dec : EqDecision pyclass.
Proof. solve_decision. Defined.

(** Method resolution order: the class itself and all its ancestors. *)
Definition mro (c : pyclass) : list pyclass :=
  match c with
  | BaseException => [BaseException]
  | Exception => [Exception; BaseException]
  | CancelledError => [CancelledError; BaseException]
  | ServerTimeoutError =>
      [ServerTimeoutError; ClientError; TimeoutError; Exception; BaseException]
  | _ => [c; Exception; BaseException]
  end.

Definition issubclass (c d : pyclass) : bool := bool_decide (d ∈ mro c).

Record exn : Type := mkExn { exn_class : pyclass; exn_str : string }.

Definition isinstance (e : exn) (cs : list pyclass) : bool :=
  existsb (issubclass (exn_class e)) cs.

Inductive result (A : Type) : Type :=
| Return (a : A)
| Raise (e : exn).
Arguments Return {A} a.
Arguments Raise {A} e.

(** ** The client object, the requests and the trace *)

Record Client : Type := mkClient {
  _client_id : string;
  _client_secret : string;
  _team_ids : list string;
  _expires : Z;                 (* a datetime, in ticks since [datetime.min] *)
  _headers : option dict        (* [None] or a header dictionary *)
}.

Definition datetime_min : Z := 0.

(** [ShlApiClient.__init__]; the session handle is the section variable
    [session] below. *)
Definition init (client_id client_secret : string) (team_ids : list string)
  : Client :=
  {| _client_id := client_id;
     _client_secret := client_secret;
     _team_ids := team_ids;
     _expires := datetime_min;
     _headers := None |}.

Definition with_expires (t : Z) (c : Client) : Client :=
  {| _client_id := _client_id c;
     _client_secret := _client_secret c;
     _team_ids := _team_ids c;
     _expires := t;
     _headers := _headers c |}.

Definition with_headers (h : option dict) (c : Client) : Client :=
  {| _client_id := _client_id c;
     _client_secret := _client_secret c;
     _team_ids := _team_ids c;
     _expires := _expires c;
     _headers := h |}.

(** One call of [self._session.get/put/patch/post]: the verb, the URL and the
    keyword arguments [headers], [json] (absent for GET) and [params]. *)
Record request : Type := mkRequest {
  req_verb : string;
  req_url : string;
  req_headers : option dict;
  req_json : option dict;
  req_params : dict
}.

(** A response object: all the client does with it is [await
    response.json()], which yields a value or raises. *)
Record response : Type := mkResponse { json : result pyval }.

Inductive event : Type :=
| Requested (r : request)       (* a call on the HTTP session *)
| Logged (msg : string)         (* a record of [_LOGGER.error] *)
| Reconnecting.                 (* line 139, the reconnect branch, was entered *)

Record World : Type := mkWorld { client : Client; trace : list event }.

Definition requests (tr : list event) : list request :=
  omap (λ ev, match ev with Requested r => Some r | _ => None end) tr.

Definition logged (tr : list event) : list string :=
  omap (λ ev, match ev with Logged m => Some m | _ => None end) tr.

Definition reconnects (tr : list event) : list () :=
  omap (λ ev, match ev with Reconnecting => Some () | _ => None end) tr.

(** ** The monad of methods *)

Definition M (A : Type) : Type := World → result A * World.

#[global] Instance M_ret : MRet M := λ A a w, (Return a, w).

#[global] Instance M_bind : MBind M := λ A B f m w,
  match m w with
  | (Return a, w') => f a w'
  | (Raise e, w') => (Raise e, w')
  end.

Definition raise {A} (e : exn) : M A := λ w, (Raise e, w).

Definition lift {A} (r : result A) : M A := λ w, (r, w).

Definition gets {A} (f : Client → A) : M A := λ w, (Return (f (client w)), w).

Definition modify (f : Client → Client) : M () :=
  λ w, (Return (), {| client := f (client w); trace := trace w |}).

(** The world after one more event. *)
Definition record (ev : event) (w : World) : World :=
  {| client := client w; trace := trace w ++ [ev] |}.

Definition emit (ev : event) : M () := λ w, (Return (), record ev w).

(** [try: body  except cs1 as e: h1  except cs2 as e: h2 ...]: the first
    clause one of whose classes the raised exception is an instance of handles
    it; with no such clause the exception propagates. *)
Definition try_except {A} (body : M A)
    (clauses : list (list pyclass * (exn → M A))) : M A :=
  λ w,
    match body w with
    | (Return a, w') => (Return a, w')
    | (Raise e, w') =>
        match find (λ cl, isinstance e cl.1) clauses with
        | Some cl => cl.2 e w'
        | None => (Raise e, w')
        end
    end.

(** ** Operations of the interpreter that the client relies on *)

Definition py_lookup (k : string) (d : list (string * pyval)) : option pyval :=
  snd <$> find (λ kv, String.eqb kv.1 k) d.

(** [v[k]] with a string key. *)
Definition py_getitem (v : pyval) (k : string) : result pyval :=
  match v with
  | PyDict d =>
      match py_lookup k d with
      | Some x => Return x
      | None => Raise (mkExn KeyError k)
      end
  | PyNone => Raise (mkExn TypeError "'NoneType' object is not subscriptable")
  | PyBool _ => Raise (mkExn TypeError "'bool' object is not subscriptable")
  | PyInt _ => Raise (mkExn TypeError "'int' object is not subscriptable")
  | PyFloat _ _ => Raise (mkExn TypeError "'float' object is not subscriptable")
  | PyStr _ => Raise (mkExn TypeError "string indices must be integers")
  | PyList _ => Raise (mkExn TypeError "list indices must be integers or slices, not str")
  | PyMethod _ => Raise (mkExn TypeError "'method' object is not subscriptable")
  end.

(** [int(v)]: a float is truncated towards zero, a string is read as a plain
    decimal literal. *)
Definition py_int (v : pyval) : result Z :=
  match v with
  | PyInt n => Return n
  | PyBool b => Return (if b then 1 else 0)
  | PyFloat m e => Return (if 0 <=? e then m * 2 ^ e else m ÷ 2 ^ (- e))
  | PyStr s =>
      match NilZero.int_of_string s with
      | Some d => Return (Z.of_int d)
      | None => Raise (mkExn ValueError "invalid literal for int() with base 10")
      end
  | _ => Raise (mkExn TypeError "int() argument must be a string, a bytes-like object or a real number")
  end.

(** [t + n] for a datetime [t] and an int [n]: [datetime.__add__] accepts a
    timedelta only, and int has no reflected addition for a datetime. *)
Definition datetime_add_int (t n : Z) : result Z :=
  Raise (mkExn TypeError "unsupported operand type(s) for +: 'datetime.datetime' and 'int'").

(** [s + v] for a str [s]. *)
Definition str_add (s : string) (v : pyval) : result string :=
  match v with
  | PyStr t => Return (s +:+ t)
  | _ => Raise (mkExn TypeError "can only concatenate str to str")
  end.

(** [for _x in v: pass]. *)
Definition py_iterate (v : pyval) : result () :=
  match v with
  | PyStr _ | PyList _ | PyDict _ => Return ()
  | PyNone => Raise (mkExn TypeError "'NoneType' object is not iterable")
  | PyBool _ => Raise (mkExn TypeError "'bool' object is not iterable")
  | PyInt _ => Raise (mkExn TypeError "'int' object is not iterable")
  | PyFloat _ _ => Raise (mkExn TypeError "'float' object is not iterable")
  | PyMethod _ => Raise (mkExn TypeError "'method' object is not iterable")
  end.

(** ** The client's methods *)

(** [ShlApiClient.generate_url]: [season] is tested for truth, and formatted
    in decimal by the f-string. *)
Definition generate_url (query : string) (season : Z) : string :=
  if truthy (PyInt season)
  then BASE_URL +:+ "/seasons/" +:+ pretty season +:+ "/" +:+ query
  else BASE_URL +:+ "/" +:+ query.

Section Client.

(** The HTTP session supplied to the constructor, as seen under the guard
    [async_timeout.timeout(TIMEOUT)] that surrounds every call: a response,
    or an exception (a [TimeoutError] when the guard fires).  And the reading
    of the clock, [datetime.now()]. *)
Variable session : request → result response.
Variable now : Z.

Definition datetime_now : M Z := mret now.

Definition session_call (verb url : string) (headers : option dict)
    (body : option dict) (params : dict) : M response :=
  let r := mkRequest verb url headers body params in
  emit (Requested r);; lift (session r).

Definition response_json (r : response) : M pyval := lift (json r).

Definition LOGGER_error (msg : string) : M () := emit (Logged msg).

(** [ShlApiClient.is_connected]: [self._headers and self._expires >
    datetime.now()].  Python's [and] returns its left operand when that is
    false ([None] or the empty dictionary) and the right one otherwise. *)
Definition is_connected : M pyval :=
  h ← gets _headers;
  match h with
  | None => mret PyNone
  | Some d =>
      if dict_truthy d
      then expires ← gets _expires;
           t ← datetime_now;
           mret (PyBool (bool_decide (t < expires)))
      else mret (PyDict [])
  end.

(** [headers or self._headers]. *)
Definition headers_or (headers : dict) : M (option dict) :=
  if dict_truthy headers then mret (Some headers) else gets _headers.

(** The four [except] clauses of [api_wrapper], in order.  Each logs one
    record; control then reaches the end of the function, which returns
    [None]. *)
Definition except_clauses (url : string)
  : list (list pyclass * (exn → M pyval)) :=
  [ ([TimeoutError],
     λ e, LOGGER_error ("Timeout error fetching information from "
                          +:+ url +:+ " - " +:+ exn_str e);; mret PyNone);
    ([KeyError; TypeError],
     λ e, LOGGER_error ("Error parsing information from "
                          +:+ url +:+ " - " +:+ exn_str e);; mret PyNone);
    ([ClientError; gaierror],
     λ e, LOGGER_error ("Error fetching information from "
                          +:+ url +:+ " - " +:+ exn_str e);; mret PyNone);
    ([Exception],
     λ e, LOGGER_error ("Something really wrong happened! - "
                          +:+ exn_str e);; mret PyNone) ].

(** The guard of line 138, [not headers and not self.is_connected]: it
    tests the bound method itself, not the result of calling it. *)
Definition reconnect_guard (headers : dict) : bool :=
  negb (dict_truthy headers) && negb (truthy (PyMethod "is_connected")).

(** [ShlApiClient.api_wrapper].  The guarded branch calls [self.connect],
    an attribute the class does not define. *)
Definition api_wrapper (method url : string) (data headers params : dict)
  : M pyval :=
  (if reconnect_guard headers
   then emit Reconnecting;;
        raise (mkExn AttributeError
                 "'ShlApiClient' object has no attribute 'connect'")
   else mret ());;
  try_except
    (if String.eqb method "get" then
       hs ← headers_or headers;
       resp ← session_call "get" url hs None params;
       response_json resp
     else if String.eqb method "put" then
       hs ← headers_or headers;
       session_call "put" url hs (Some data) params;;
       mret PyNone
     else if String.eqb method "patch" then
       hs ← headers_or headers;
       session_call "patch" url hs (Some data) params;;
       mret PyNone
     else if String.eqb method "post" then
       hs ← headers_or headers;
       session_call "post" url hs (Some data) params;;
       mret PyNone
     else mret PyNone)
    (except_clauses url).

(** Lines 45 to 48 of [ShlApiClient.async_connect]: what it does with the
    value that [api_wrapper] gave back. *)
Definition async_connect_store (body : pyval) : M pyval :=
  t ← datetime_now;
  expires_in ← lift (py_getitem body "expires_in");
  seconds ← lift (py_int expires_in);
  expires ← lift (datetime_add_int t seconds);
  modify (with_expires expires);;
  modify (with_headers (Some HEADERS));;
  access_token ← lift (py_getitem body "access_token");
  bearer ← lift (str_add "Bearer " access_token);
  modify (λ c, with_headers (insert "Authorization" bearer <$> _headers c) c);;
  mret body.

(** [ShlApiClient.async_connect]. *)
Definition async_connect : M pyval :=
  client_id ← gets _client_id;
  client_secret ← gets _client_secret;
  let form : dict := {[ "client_id" := client_id;
                        "client_secret" := client_secret;
                        "grant_type" := "client_credentials" ]} in
  let headers : dict := {[ "User-Agent" := NAME +:+ "/" +:+ VERSION ]} in
  body ← api_wrapper "post" (BASE_URL +:+ AUTH) form headers ∅;
  async_connect_store body.

(** The typed fetch operations.  An omitted [data], [headers] or [params]
    is the empty dictionary of [api_wrapper]'s defaults. *)
Definition async_get_articles (team_ids : list string) : M pyval :=
  let url := generate_url "articles" 0 in
  if list_truthy team_ids
  then api_wrapper "get" url ∅ ∅ {[ "teamIds" := String.concat "," team_ids ]}
  else api_wrapper "get" url ∅ ∅ ∅.

Definition async_get_games (season : Z) (team_ids : list string) : M pyval :=
  let url := generate_url "games" season in
  if list_truthy team_ids
  then self_team_ids ← gets _team_ids;
       api_wrapper "get" url ∅ ∅
         {[ "teamIds" := String.concat "," self_team_ids ]}
  else api_wrapper "get" url ∅ ∅ ∅.

Definition async_get_game (season : Z) (match_id : string) : M pyval :=
  let url := generate_url ("games/" +:+ match_id +:+ ".json") season in
  api_wrapper "get" url ∅ ∅ ∅.

Definition async_get_player_stats (season : Z) (stat : string)
    (team_ids : list string) : M pyval :=
  let params : dict := {[ "sort" := stat ]} in
  let params : dict :=
    if list_truthy team_ids
    then <[ "team_ids" := String.concat "," team_ids ]> params
    else params in
  let url := generate_url "statistics/players.json" season in
  api_wrapper "get" url ∅ ∅ params.

Definition async_get_goalie_stats (season : Z) (stat : string)
    (team_ids : list string) : M pyval :=
  let url := generate_url "statistics/goalkeepers.json" season in
  let params : dict := {[ "sort" := stat ]} in
  let params : dict :=
    if list_truthy team_ids
    then <[ "team_ids" := String.concat "," team_ids ]> params
    else params in
  api_wrapper "get" url ∅ ∅ params.

Definition async_get_teams : M pyval :=
  let url := generate_url "teams.json" 0 in
  api_wrapper "get" url ∅ ∅ ∅.

Definition async_get_team_stats (season : Z) (team_ids : list string)
  : M pyval :=
  let url := generate_url "statistics/teams/standings.json" season in
  if list_truthy team_ids
  then api_wrapper "get" url ∅ ∅
         {[ "team_ids" := String.concat "," team_ids ]}
  else api_wrapper "get" url ∅ ∅ ∅.

Definition async_get_team_player_stats (team_code : string) : M pyval :=
  let url := generate_url ("teams/" +:+ team_code +:+ ".json") 0 in
  api_wrapper "get" url ∅ ∅ ∅.

Definition async_get_videos (team_ids : list string) : M pyval :=
  let url := generate_url "videos.json" 0 in
  if list_truthy team_ids
  then api_wrapper "get" url ∅ ∅
         {[ "team_ids" := String.concat "," team_ids ]}
  else api_wrapper "get" url ∅ ∅ ∅.

(** [ShlApiClient.async_get_data]: both loops have an empty body, and the
    method ends without a [return]. *)
Definition async_get_data (season : Z) (team_ids : list string) : M pyval :=
  games ← async_get_games season team_ids;
  articles ← async_get_articles team_ids;
  lift (py_iterate games);;
  lift (py_iterate articles);;
  mret PyNone.

End Client.

(** * Vocabulary of the properties *)

Definition verbs : list string := ["get"; "put"; "patch"; "post"].

(** [headers or self._headers], on a given client. *)
Definition effective_headers (c : Client) (headers : dict) : option dict :=
  if dict_truthy headers then Some headers else _headers c.

(** The call that [api_wrapper] places on the session for a verb it knows:
    GET carries no [json] argument, the three writing verbs carry [data]. *)
Definition request_of (c : Client) (method url : string)
    (data headers params : dict) : request :=
  mkRequest method url (effective_headers c headers)
    (if String.eqb method "get" then None else Some data) params.

(** What the [except] clauses make of an exception raised in the [try]. *)
Definition caught (url : string) (e : exn) : M pyval :=
  try_except (raise e) (except_clauses url).

(** The taxonomy of the error policy as the specification words it, with
    the prefix of the log record of each category.  A failure is classed by
    the first of the tests that it passes. *)
Inductive category : Type := Timeout | ParseError | NetworkError | UnknownError.

Definition categorize (e : exn) : category :=
  if isinstance e [TimeoutError] then Timeout
  else if isinstance e [KeyError; TypeError] then ParseError
  else if isinstance e [ClientError; gaierror] then NetworkError
  else UnknownError.

Definition log_prefix (k : category) : string :=
  match k with
  | Timeout => "Timeout error fetching information from"
  | ParseError => "Error parsing information from"
  | NetworkError => "Error fetching information from"
  | UnknownError => "Something really wrong happened!"
  end.

(** A failure of the exchange inside [api_wrapper]: the call on the session
    raises, or (for GET) decoding the body of the response does. *)
Definition exchange_fails (session : request → result response)
    (method : string) (r : request) (e : exn) : Prop :=
  method ∈ verbs ∧
  (session r = Raise e ∨
   method = "get" ∧ ∃ resp, session r = Return resp ∧ json resp = Raise e).

(** The operations of the client that are not [async_connect]: the typed
    fetch operations and the request executor itself. *)
Inductive operation : Type :=
| GetArticles (team_ids : list string)
| GetGames (season : Z) (team_ids : list string)
| GetGame (season : Z) (match_id : string)
| GetPlayerStats (season : Z) (stat : string) (team_ids : list string)
| GetGoalieStats (season : Z) (stat : string) (team_ids : list string)
| GetTeams
| GetTeamStats (season : Z) (team_ids : list string)
| GetTeamPlayerStats (team_code : string)
| GetVideos (team_ids : list string)
| GetData (season : Z) (team_ids : list string)
| ApiWrapper (method url : string) (data headers params : dict).

Definition perform (session : request → result response) (op : operation)
  : M pyval :=
  match op with
  | GetArticles team_ids => async_get_articles session team_ids
  | GetGames season team_ids => async_get_games session season team_ids
  | GetGame season match_id => async_get_game session season match_id
  | GetPlayerStats season stat team_ids =>
      async_get_player_stats session season stat team_ids
  | GetGoalieStats season stat team_ids =>
      async_get_goalie_stats session season stat team_ids
  | GetTeams => async_get_teams session
  | GetTeamStats season team_ids => async_get_team_stats session season team_ids
  | GetTeamPlayerStats team_code => async_get_team_player_stats session team_code
  | GetVideos team_ids => async_get_videos session team_ids
  | GetData season team_ids => async_get_data session season team_ids
  | ApiWrapper method url data headers params =>
      api_wrapper session method url data headers params
  end.

(** A computation that leaves the client object as it found it. *)
Definition preserves_client {A} (m : M A) : Prop :=
  ∀ w, client (m w).2 = client w.

(** The team-scoped fetch operations, and the query parameter each uses for
    the scoping. *)
Inductive scoped_fetch : Type :=
| Articles
| Games (season : Z)
| PlayerStats (season : Z) (stat : string)
| GoalieStats (season : Z) (stat : string)
| TeamStats (season : Z)
| Videos.

Definition scoping_key (f : scoped_fetch) : string :=
  match f with
  | Articles | Games _ => "teamIds"
  | _ => "team_ids"
  end.

Definition fetch_scoped (session : request → result response)
    (f : scoped_fetch) (team_ids : list string) : M pyval :=
  match f with
  | Articles => async_get_articles session team_ids
  | Games season => async_get_games session season team_ids
  | PlayerStats season stat => async_get_player_stats session season stat team_ids
  | GoalieStats season stat => async_get_goalie_stats session season stat team_ids
  | TeamStats season => async_get_team_stats session season team_ids
  | Videos => async_get_videos session team_ids
  end.

(** The value of the scoping parameter on the requests of a trace. *)
Definition scoping_sent (f : scoped_fetch) (tr : list event)
  : list (option string) :=
  (λ r, req_params r !! scoping_key f) <$> requests tr.

(** The POST that [async_connect] has [api_wrapper] place. *)
Definition token_request (c : Client) : request :=
  mkRequest "post" (BASE_URL +:+ AUTH)
    (Some {[ "User-Agent" := NAME +:+ "/" +:+ VERSION ]})
    (Some {[ "client_id" := _client_id c;
             "client_secret" := _client_secret c;
             "grant_type" := "client_credentials" ]})
    ∅.

(** A token endpoint that answers every call with a well-formed grant. *)
Definition token_endpoint (expires_in : Z) (access_token : string)
  : request → result response :=
  λ _, Return (mkResponse (Return (PyDict [ ("expires_in", PyInt expires_in);
                                            ("access_token", PyStr access_token) ]))).

(** The [TypeError] of subscripting [None]. *)
Definition none_not_subscriptable : exn :=
  mkExn TypeError "'NoneType' object is not subscriptable".

(** * Vocabulary of the further properties *)

(** The typed fetch operations that place a single GET. *)
Definition single_fetch (op : operation) : bool :=
  match op with
  | GetData _ _ | ApiWrapper _ _ _ _ _ => false
  | _ => true
  end.

(** A request addressed to the API host. *)
Definition on_host (r : request) : Prop :=
  String.prefix (BASE_URL +:+ "/") (req_url r) = true.

(** A computation that leaves the client as it found it and whose requests
    all satisfy [Q], which may depend on that client. *)
Definition emits {A} (Q : Client → request → Prop) (m : M A) : Prop :=
  ∀ w, client (m w).2 = client w
       ∧ ∃ new, requests (trace (m w).2) = requests (trace w) ++ new
                ∧ Forall (Q (client w)) new.

(** The values a [for] loop accepts. *)
Definition iterable (v : pyval) : bool :=
  match v with
  | PyStr _ | PyList _ | PyDict _ => true
  | _ => false
  end.

(** The [TypeError] of iterating over [None]. *)
Definition none_not_iterable : exn :=
  mkExn TypeError "'NoneType' object is not iterable".


(** The text of the log record that the [except] clauses write for a
    failure, by category: the last clause does not mention the URL. *)
Definition log_text (url : string) (e : exn) : string :=
  match categorize e with
  | Timeout =>
      "Timeout error fetching information from " +:+ url +:+ " - " +:+ exn_str e
  | ParseError =>
      "Error parsing information from " +:+ url +:+ " - " +:+ exn_str e
  | NetworkError =>
      "Error fetching information from " +:+ url +:+ " - " +:+ exn_str e
  | UnknownError => "Something really wrong happened! - " +:+ exn_str e
  end.

(** A use of the client: one call of a public method, made against some
    behaviour of the network and at some instant.  A caller that catches
    what the call raises goes on with the same client object. *)
Inductive call : Type :=
| Connect
| IsConnected
| Perform (op : operation).

Record step : Type := mkStep {
  step_call : call;
  step_session : request → result response;
  step_now : Z
}.

Definition invoke (s : step) : M pyval :=
  match step_call s with
  | Connect => async_connect (step_session s) (step_now s)
  | IsConnected => is_connected (step_now s)
  | Perform op => perform (step_session s) op
  end.

Definition run (steps : list step) (w : World) : World :=
  fold_left (λ w s, (invoke s w).2) steps w.

(** The calls that go through the typed methods only. *)
Definition typed_call (c : call) : bool :=
  match c with
  | Perform (ApiWrapper _ _ _ _ _) => false
  | _ => true
  end.

(** A session that fails with instances of [Exception] only, in the call
    and in the decoding of the body. *)
Definition raises_exceptions_only (session : request → result response) : Prop :=
  ∀ r, match session r with
       | Raise e => isinstance e [Exception] = true
       | Return resp =>
           match json resp with
           | Raise e => isinstance e [Exception] = true
           | Return _ => True
           end
       end.

(** The two requests of [async_get_data], as the client [c] places them. *)
Definition games_request (c : Client) (season : Z) (team_ids : list string)
  : request :=
  mkRequest "get" (generate_url "games" season) (_headers c) None
    (if list_truthy team_ids
     then {[ "teamIds" := String.concat "," (_team_ids c) ]} else ∅).

Definition articles_request (c : Client) (team_ids : list string) : request :=
  mkRequest "get" (generate_url "articles" 0) (_headers c) None
    (if list_truthy team_ids
     then {[ "teamIds" := String.concat "," team_ids ]} else ∅).

(** * Properties *)

(** ** The request executor, case by case *)

Lemma reconnect_guard_false headers : reconnect_guard headers = false.
Proof. unfold reconnect_guard. cbn. apply andb_false_r. Qed.

Lemma headers_or_run headers w :
  headers_or headers w = (Return (effective_headers (client w) headers), w).
Proof. unfold headers_or, effective_headers. by destruct (dict_truthy headers). Qed.

Lemma api_wrapper_verb session method url data headers params w :
  method ∈ verbs →
  api_wrapper session method url data headers params w =
    let r := request_of (client w) method url data headers params in
    let w1 := record (Requested r) w in
    match session r with
    | Raise e => caught url e w1
    | Return resp =>
        if String.eqb method "get"
        then match json resp with
             | Return v => (Return v, w1)
             | Raise e => caught url e w1
             end
        else (Return PyNone, w1)
    end.
Proof.
  intros Hm. unfold api_wrapper. rewrite reconnect_guard_false.
  unfold verbs in Hm. rewrite !elem_of_cons, elem_of_nil in Hm.
  destruct Hm as [-> | [-> | [-> | [-> | []]]]];
    unfold request_of, caught, try_except, mbind, M_bind, mret, M_ret,
      session_call, response_json, emit, lift, raise;
    cbn [String.eqb Ascii.eqb Bool.eqb];
    rewrite headers_or_run; cbn [client record];
    destruct (session _) as [[[v | e]] | e]; reflexivity.
Qed.

Lemma api_wrapper_other session method url data headers params w :
  method ∉ verbs →
  api_wrapper session method url data headers params w = (Return PyNone, w).
Proof.
  intros Hm. unfold api_wrapper. rewrite reconnect_guard_false.
  assert (∀ v, v ∈ verbs → String.eqb method v = false) as Hne.
  { intros v Hv. apply String.eqb_neq. intros ->. done. }
  unfold try_except, mbind, M_bind, mret, M_ret.
  rewrite !Hne by compute_done. reflexivity.
Qed.

Lemma caught_Exception url e w :
  isinstance e [Exception] = true →
  ∃ msg, caught url e w = (Return PyNone, record (Logged msg) w)
         ∧ String.prefix (log_prefix (categorize e)) msg = true.
Proof.
  destruct e as [c s]. intros He.
  destruct c; try discriminate He; eexists; split; reflexivity.
Qed.

Lemma caught_BaseException url e w :
  isinstance e [Exception] = false → caught url e w = (Raise e, w).
Proof.
  destruct e as [c s]. intros He. by destruct c; try discriminate He.
Qed.

Lemma api_wrapper_failure session method url data headers params w e :
  exchange_fails session method
    (request_of (client w) method url data headers params) e →
  api_wrapper session method url data headers params w =
    caught url e
      (record (Requested (request_of (client w) method url data headers params)) w).
Proof.
  intros [Hm Hfail]. rewrite api_wrapper_verb by done. cbn zeta.
  destruct Hfail as [-> | [-> (resp & -> & Hj)]]; [done |].
  cbn. by rewrite Hj.
Qed.

Lemma writing_verb method :
  method ∈ ["put"; "patch"; "post"] →
  method ∈ verbs ∧ String.eqb method "get" = false.
Proof.
  rewrite !elem_of_cons, elem_of_nil.
  intros [-> | [-> | [-> | []]]]; (split; [compute_done | reflexivity]).
Qed.

Lemma requests_record_Requested r w :
  requests (trace (record (Requested r) w)) = requests (trace w) ++ [r].
Proof. unfold requests, record. cbn. by rewrite omap_app. Qed.

Lemma requests_record_Logged msg w :
  requests (trace (record (Logged msg) w)) = requests (trace w).
Proof. unfold requests, record. cbn. rewrite omap_app. cbn. apply app_nil_r. Qed.

Lemma logged_record_Requested r w :
  logged (trace (record (Requested r) w)) = logged (trace w).
Proof. unfold logged, record. cbn. rewrite omap_app. cbn. apply app_nil_r. Qed.

Lemma logged_record_Logged msg w :
  logged (trace (record (Logged msg) w)) = logged (trace w) ++ [msg].
Proof. unfold logged, record. cbn. by rewrite omap_app. Qed.

Lemma reconnects_record ev w :
  ev ≠ Reconnecting →
  reconnects (trace (record ev w)) = reconnects (trace w).
Proof.
  intros Hev. unfold reconnects, record. cbn. rewrite omap_app.
  destruct ev; cbn; try apply app_nil_r. done.
Qed.

(** The outcome of [api_wrapper], whatever happens: it returns what the GET
    decoded or [None], or lets through an exception that is no [Exception];
    the client is the same; the trace grows by at most one request followed
    by at most one log record. *)
Lemma api_wrapper_cases session method url data headers params w :
  let r := request_of (client w) method url data headers params in
  let out := api_wrapper session method url data headers params w in
  out = (Return PyNone, w) ∧ method ∉ verbs
  ∨ method ∈ verbs ∧
    ((∃ v, out = (Return v, record (Requested r) w))
     ∨ (∃ msg, out = (Return PyNone, record (Logged msg) (record (Requested r) w)))
     ∨ (∃ e, out = (Raise e, record (Requested r) w)
             ∧ isinstance e [Exception] = false)).
Proof.
  intros r out. subst out.
  destruct (decide (method ∈ verbs)) as [Hm | Hm];
    [right; split; [done |] | left; split; [by apply api_wrapper_other | done]].
  rewrite api_wrapper_verb by done. cbn zeta. fold r.
  assert (∀ e w1, (∃ msg, caught url e w1 = (Return PyNone, record (Logged msg) w1))
                  ∨ caught url e w1 = (Raise e, w1) ∧ isinstance e [Exception] = false)
    as Hcaught.
  { intros e w1. destruct (isinstance e [Exception]) eqn:He.
    - left. destruct (caught_Exception url e w1 He) as (msg & ? & _). eauto.
    - right. split; [by apply caught_BaseException | done]. }
  destruct (session r) as [[[v | e]] | e].
  - destruct (String.eqb method "get"); cbn [json]; eauto.
  - destruct (String.eqb method "get"); [| by eauto]. cbn [json].
    destruct (Hcaught e (record (Requested r) w)) as [[msg ->] | [-> ?]]; eauto.
  - destruct (Hcaught e (record (Requested r) w)) as [[msg ->] | [-> ?]]; eauto.
Qed.

(** ** Claims about the request executor *)

(** C6.  Every failure of the exchange inside [api_wrapper] that is an
    [Exception] (a timeout, a network error, a parse error or any other one),
    raised by the call on the session or by decoding the body of a GET, is
    caught there: [api_wrapper] returns [None] instead of raising, and writes
    exactly one log record, which begins with the prefix of the failure's
    category. *)
Theorem api_wrapper_swallows_failures
    session method url data headers params w e :
  let r := request_of (client w) method url data headers params in
  let out := api_wrapper session method url data headers params w in
  exchange_fails session method r e →
  isinstance e [Exception] = true →
  out.1 = Return PyNone
  ∧ ∃ msg, logged (trace out.2) = logged (trace w) ++ [msg]
           ∧ String.prefix (log_prefix (categorize e)) msg = true.
Proof.
  intros r out Hfail He. subst out.
  rewrite (api_wrapper_failure _ _ _ _ _ _ _ _ Hfail). fold r.
  destruct (caught_Exception url e (record (Requested r) w) He)
    as (msg & -> & Hprefix).
  split; [done |]. exists msg. split; [| done]. cbn [snd].
  by rewrite logged_record_Logged, logged_record_Requested.
Qed.

(** C7.  The guard of the reconnect branch is false for every header
    argument, so no call of [api_wrapper], on any client and with any
    arguments, enters the branch. *)
Theorem api_wrapper_never_reconnects
    session method url data headers params w :
  reconnect_guard headers = false
  ∧ reconnects (trace (api_wrapper session method url data headers params w).2)
    = reconnects (trace w).
Proof.
  split; [apply reconnect_guard_false |].
  destruct (api_wrapper_cases session method url data headers params w)
    as [[-> _] | [_ [[v ->] | [[msg ->] | (e & -> & _)]]]]; cbn [snd];
    by rewrite ?reconnects_record.
Qed.

(** C8.  A GET whose response body decodes to a value returns exactly that
    value.  A PUT, PATCH or POST places its request, with [data] as the JSON
    body, and never returns anything but [None]: it returns [None] as soon as
    the session answers. *)
Theorem api_wrapper_payload session method url data headers params w :
  let hs := effective_headers (client w) headers in
  let out := api_wrapper session method url data headers params w in
  (method = "get" →
   let r := mkRequest "get" url hs None params in
   ∀ resp v, session r = Return resp → json resp = Return v →
     out = (Return v, record (Requested r) w))
  ∧ (method ∈ ["put"; "patch"; "post"] →
     let r := mkRequest method url hs (Some data) params in
     requests (trace out.2) = requests (trace w) ++ [r]
     ∧ (∀ v, out.1 = Return v → v = PyNone)
     ∧ (∀ resp, session r = Return resp →
          out = (Return PyNone, record (Requested r) w))).
Proof.
  intros hs out. subst out. split.
  - intros -> r resp v Hs Hj.
    rewrite api_wrapper_verb by compute_done.
    cbn zeta. unfold request_of. cbn [String.eqb Ascii.eqb Bool.eqb].
    fold hs. fold r. by rewrite Hs, Hj.
  - intros Hm r.
    destruct (writing_verb method Hm) as [Hv Hget].
    assert (request_of (client w) method url data headers params = r) as Hr.
    { unfold request_of. by rewrite Hget. }
    split; [| split].
    + destruct (api_wrapper_cases session method url data headers params w)
        as [[_ ?] | [_ [[v ->] | [[msg ->] | (e & -> & _)]]]]; [done | ..];
        rewrite Hr; cbn [snd];
        by rewrite ?requests_record_Logged, requests_record_Requested.
    + rewrite api_wrapper_verb by done. cbn zeta. rewrite Hr, Hget.
      destruct (session r) as [resp | e].
      * by intros v [= <-].
      * destruct (isinstance e [Exception]) eqn:He.
        -- destruct (caught_Exception url e (record (Requested r) w) He)
             as (msg & -> & _). by intros v [= <-].
        -- rewrite caught_BaseException by done. by intros v [=].
    + intros resp Hs. rewrite api_wrapper_verb by done. cbn zeta.
      by rewrite Hr, Hs, Hget.
Qed.

(** C10.  With a method string other than "get", "put", "patch" and "post",
    [api_wrapper] returns [None] and leaves the world as it was: no request
    is placed, nothing is logged, nothing is raised. *)
Theorem api_wrapper_unknown_method session method url data headers params w :
  method ∉ ["get"; "put"; "patch"; "post"] →
  api_wrapper session method url data headers params w = (Return PyNone, w).
Proof. apply api_wrapper_other. Qed.

(** ** The client object is only read *)

Lemma api_wrapper_requests session method url data headers params w :
  method ∈ verbs →
  requests (trace (api_wrapper session method url data headers params w).2)
  = requests (trace w) ++ [request_of (client w) method url data headers params].
Proof.
  intros Hm.
  destruct (api_wrapper_cases session method url data headers params w)
    as [[_ ?] | [_ [[v ->] | [[msg ->] | (e & -> & _)]]]]; [done | ..];
    cbn [snd];
    by rewrite ?requests_record_Logged, requests_record_Requested.
Qed.

Lemma preserves_api_wrapper session method url data headers params :
  preserves_client (api_wrapper session method url data headers params).
Proof.
  intros w.
  by destruct (api_wrapper_cases session method url data headers params w)
    as [[-> _] | [_ [[v ->] | [[msg ->] | (e & -> & _)]]]].
Qed.

Lemma preserves_ret {A} (a : A) : preserves_client (mret a).
Proof. by intros w. Qed.

Lemma preserves_lift {A} (r : result A) : preserves_client (lift r).
Proof. by intros w. Qed.

Lemma preserves_gets {A} (f : Client → A) : preserves_client (gets f).
Proof. by intros w. Qed.

Lemma preserves_bind {A B} (m : M A) (f : A → M B) :
  preserves_client m → (∀ a, preserves_client (f a)) →
  preserves_client (m ≫= f).
Proof.
  intros Hm Hf w. unfold mbind, M_bind. specialize (Hm w).
  destruct (m w) as [[a | e] w']; cbn in *; [| done].
  by rewrite Hf.
Qed.

Lemma preserves_if {A} (b : bool) (m1 m2 : M A) :
  preserves_client m1 → preserves_client m2 →
  preserves_client (if b then m1 else m2).
Proof. by destruct b. Qed.

Create HintDb frame.
#[local] Hint Resolve preserves_api_wrapper preserves_ret preserves_lift
  preserves_gets preserves_bind preserves_if : frame.

Ltac frame := repeat (intros; first [ progress eauto with frame
                                    | apply preserves_bind
                                    | apply preserves_if ]).

Lemma preserves_perform session op : preserves_client (perform session op).
Proof.
  destruct op; cbn [perform];
    unfold async_get_articles, async_get_games, async_get_game,
      async_get_player_stats, async_get_goalie_stats, async_get_teams,
      async_get_team_stats, async_get_team_player_stats, async_get_videos,
      async_get_data, async_get_games, async_get_articles;
    cbn zeta; frame.
Qed.

(** C9.  Every typed fetch operation and every call of [api_wrapper] leaves
    the client object, and so its stored expiry and header set (which holds
    the token), as it was. *)
Theorem operations_preserve_token session op w :
  let w' := (perform session op w).2 in
  client w' = client w
  ∧ _expires (client w') = _expires (client w)
  ∧ _headers (client w') = _headers (client w).
Proof.
  cbn zeta. by rewrite (preserves_perform session op w).
Qed.

(** ** Connectivity and URLs *)

Lemma dict_truthy_true (d : dict) : dict_truthy d = true ↔ d ≠ ∅.
Proof. unfold dict_truthy. apply bool_decide_eq_true. Qed.

Lemma is_connected_run now w :
  is_connected now w =
    (Return match _headers (client w) with
            | None => PyNone
            | Some d => if dict_truthy d
                        then PyBool (bool_decide (now < _expires (client w)))
                        else PyDict []
            end, w).
Proof.
  unfold is_connected, mbind, M_bind, gets, datetime_now, mret, M_ret.
  destruct (_headers (client w)) as [d |]; [| done].
  by destruct (dict_truthy d).
Qed.

(** C3.  [is_connected] answers true exactly when the client holds a header
    set (a dictionary with a header in it, as every one that line 46 and 47
    build is) and the clock reads strictly less than the stored expiry.  On a
    client as the constructor leaves it the answer is false.  The call leaves
    the world as it was: no request, no log record, no change of the
    client. *)
Theorem is_connected_spec :
  (∀ now w, ∃ v,
      is_connected now w = (Return v, w)
      ∧ (truthy v = true ↔
         (∃ h, _headers (client w) = Some h ∧ h ≠ ∅) ∧ now < _expires (client w)))
  ∧ (∀ now w token, ∃ v,
      let installed := Some (<[ "Authorization" := "Bearer " +:+ token ]> HEADERS) in
      let w' := mkWorld (with_headers installed (client w)) (trace w) in
      is_connected now w' = (Return v, w')
      ∧ (truthy v = true ↔ now < _expires (client w)))
  ∧ (∀ now client_id client_secret team_ids tr, ∃ v,
      is_connected now (mkWorld (init client_id client_secret team_ids) tr)
        = (Return v, mkWorld (init client_id client_secret team_ids) tr)
      ∧ truthy v = false).
Proof.
  split; [| split].
  - intros now w. eexists. split; [apply is_connected_run |].
    destruct (_headers (client w)) as [d |]; cbn.
    + destruct (dict_truthy d) eqn:Hd; cbn.
      * apply dict_truthy_true in Hd. rewrite bool_decide_eq_true.
        split; [by eauto | by intros [_ ?]].
      * split; [done |]. intros [(h & [= <-] & Hh) _].
        apply dict_truthy_true in Hh. congruence.
    + split; [done |]. by intros [(h & [=] & _) _].
  - intros now w token. eexists. cbn zeta. split; [apply is_connected_run |].
    cbn [client with_headers _headers _expires].
    assert (dict_truthy (<[ "Authorization" := "Bearer " +:+ token ]> HEADERS) = true)
      as -> by (apply dict_truthy_true, insert_non_empty).
    cbn. apply bool_decide_eq_true.
  - intros now client_id client_secret team_ids tr. eexists.
    split; [apply is_connected_run |]. done.
Qed.

(** C4.  [generate_url] yields base/seasons/season/path for a season other
    than zero, the season written in decimal, and base/path for season
    zero. *)
Theorem generate_url_spec :
  (∀ path season, season ≠ 0 →
     generate_url path season
     = BASE_URL +:+ "/seasons/" +:+ pretty season +:+ "/" +:+ path)
  ∧ (∀ path, generate_url path 0 = BASE_URL +:+ "/" +:+ path)
  ∧ generate_url "games.json" 0 = "https://openapi.shl.se/games.json"
  ∧ generate_url "games.json" 2022
    = "https://openapi.shl.se/seasons/2022/games.json".
Proof.
  repeat split; try reflexivity.
  intros path season Hs. unfold generate_url. cbn [truthy].
  by destruct (Z.eqb_spec season 0).
Qed.

(** ** Connecting *)

Lemma async_connect_store_None now w :
  async_connect_store now PyNone w = (Raise none_not_subscriptable, w).
Proof. reflexivity. Qed.

(** Whatever value it is given, the second half of [async_connect] raises
    before its first assignment: the sum of a datetime and an int is a
    [TypeError]. *)
Lemma async_connect_store_raises now body w :
  ∃ e, async_connect_store now body w = (Raise e, w).
Proof.
  unfold async_connect_store, mbind, M_bind, datetime_now, mret, M_ret, lift.
  destruct (py_getitem body "expires_in") as [v | e]; [| by eauto].
  destruct (py_int v) as [n | e]; [| by eauto].
  cbn. by eauto.
Qed.

Lemma async_connect_run session now w :
  async_connect session now w =
    match api_wrapper session "post" (BASE_URL +:+ AUTH)
            {[ "client_id" := _client_id (client w);
               "client_secret" := _client_secret (client w);
               "grant_type" := "client_credentials" ]}
            {[ "User-Agent" := NAME +:+ "/" +:+ VERSION ]} ∅ w with
    | (Return body, w') => async_connect_store now body w'
    | (Raise e, w') => (Raise e, w')
    end.
Proof. reflexivity. Qed.

Lemma async_connect_post session now w :
  async_connect session now w =
    let w1 := record (Requested (token_request (client w))) w in
    match session (token_request (client w)) with
    | Return _ => (Raise none_not_subscriptable, w1)
    | Raise e =>
        match caught (BASE_URL +:+ AUTH) e w1 with
        | (Return body, w') => async_connect_store now body w'
        | (Raise e', w') => (Raise e', w')
        end
    end.
Proof.
  rewrite async_connect_run, api_wrapper_verb by compute_done. cbn zeta.
  change (request_of _ _ _ _ _ _) with (token_request (client w)).
  by destruct (session _).
Qed.

(** [async_connect] never returns and never changes the client, whatever the
    session does. *)
Lemma async_connect_never_returns session now w :
  ∃ e w', async_connect session now w = (Raise e, w') ∧ client w' = client w.
Proof.
  rewrite async_connect_post. cbn zeta.
  destruct (session _) as [resp | e]; [by eauto |].
  destruct (isinstance e [Exception]) eqn:He.
  - destruct (caught_Exception (BASE_URL +:+ AUTH) e
                (record (Requested (token_request (client w))) w) He)
      as (msg & -> & _).
    rewrite async_connect_store_None. by eauto.
  - rewrite caught_BaseException by done. by eauto.
Qed.

(** C1, on the code.  The token endpoint answers the POST with a body that
    holds an integer [expires_in] and a string [access_token].  [api_wrapper]
    drops the response of a POST and returns [None], so [async_connect]
    raises a [TypeError] on its next line: the expiry and the header set are
    as before, and no body is returned. *)
Theorem async_connect_granted_raises now w expires_in access_token :
  async_connect (token_endpoint expires_in access_token) now w
  = (Raise none_not_subscriptable,
     record (Requested (token_request (client w))) w).
Proof. by rewrite async_connect_post. Qed.

(** C2, on the code.  When the exchange with the token endpoint fails with
    an [Exception], [api_wrapper] logs it and returns [None]; [async_connect]
    then raises a [TypeError] to its caller. *)
Theorem async_connect_failed_exchange_raises session now w e :
  session (token_request (client w)) = Raise e →
  isinstance e [Exception] = true →
  ∃ msg,
    async_connect session now w
    = (Raise none_not_subscriptable,
       record (Logged msg) (record (Requested (token_request (client w))) w))
    ∧ String.prefix (log_prefix (categorize e)) msg = true.
Proof.
  intros Hs He. rewrite async_connect_post, Hs. cbn zeta.
  destruct (caught_Exception (BASE_URL +:+ AUTH) e
              (record (Requested (token_request (client w))) w) He)
    as (msg & -> & Hp).
  exists msg. by rewrite async_connect_store_None.
Qed.

(** ** Team scoping *)

Lemma effective_headers_default c : effective_headers c ∅ = _headers c.
Proof. reflexivity. Qed.

Lemma scoping_sent_get session f url params w :
  scoping_sent f (trace (api_wrapper session "get" url ∅ ∅ params w).2)
  = scoping_sent f (trace w) ++ [params !! scoping_key f].
Proof.
  unfold scoping_sent. rewrite api_wrapper_requests by compute_done.
  by rewrite fmap_app.
Qed.

(** What each team-scoped fetch sends as the scoping parameter: nothing for
    an empty list, and otherwise the comma-joined identifiers, which are the
    argument's except in [async_get_games], where they are the client's. *)
Lemma scoped_fetch_sends session f team_ids w :
  scoping_sent f (trace (fetch_scoped session f team_ids w).2)
  = scoping_sent f (trace w) ++
    [ match team_ids with
      | [] => None
      | _ => Some (String.concat ","
                     match f with
                     | Games _ => _team_ids (client w)
                     | _ => team_ids
                     end)
      end ].
Proof.
  destruct f, team_ids as [| t ts]; cbn [fetch_scoped];
    unfold async_get_articles, async_get_games, async_get_player_stats,
      async_get_goalie_stats, async_get_team_stats, async_get_videos,
      mbind, M_bind, gets;
    cbn [list_truthy]; cbn zeta; cbn [fst snd];
    rewrite scoping_sent_get; do 2 f_equal; cbn [scoping_key];
    by simplify_map_eq.
Qed.

(** C5, on the code.  A client built for HV71 and asked for the games of
    LHC scopes its request by "HV71": [async_get_games] joins the client's
    own identifiers, not the list it is passed. *)
Theorem async_get_games_ignores_team_ids session :
  let w := mkWorld (init "id" "secret" ["HV71"]) [] in
  req_params <$> requests (trace (async_get_games session 2022 ["LHC"] w).2)
  = [ {[ "teamIds" := "HV71" ]} ]
  ∧ String.concat "," ["LHC"] = "LHC".
Proof.
  cbn zeta. split; [| reflexivity].
  unfold async_get_games, mbind, M_bind, gets. cbn [list_truthy fst snd].
  by rewrite api_wrapper_requests by compute_done.
Qed.

(** ** Instances *)

Lemma api_wrapper_swallows_failures_witness :
  let session : request → result response :=
    λ _, Raise (mkExn ServerTimeoutError "read timed out") in
  let out := api_wrapper session "put" "https://jsonplaceholder.typicode.com/posts/1"
               ∅ ∅ ∅ (mkWorld (init "test" "test" ["HV71"]) []) in
  out.1 = Return PyNone
  ∧ ∃ msg, logged (trace out.2) = [] ++ [msg]
           ∧ String.prefix "Timeout error fetching information from" msg = true.
Proof.
  cbn zeta.
  apply (api_wrapper_swallows_failures
           (λ _, Raise (mkExn ServerTimeoutError "read timed out"))
           "put" "https://jsonplaceholder.typicode.com/posts/1" ∅ ∅ ∅
           (mkWorld (init "test" "test" ["HV71"]) [])
           (mkExn ServerTimeoutError "read timed out")).
  - split; [compute_done | left; reflexivity].
  - reflexivity.
Defined.

Lemma api_wrapper_payload_witness :
  let w := mkWorld (init "test" "test" ["HV71"]) [] in
  let url := "https://openapi.shl.se/seasons/2022/games.json" in
  let body := PyDict [("test", PyStr "me")] in
  let session : request → result response :=
    λ _, Return (mkResponse (Return body)) in
  api_wrapper session "get" url ∅ ∅ ∅ w
  = (Return body, record (Requested (mkRequest "get" url None None ∅)) w)
  ∧ api_wrapper session "post" url ∅ ∅ ∅ w
    = (Return PyNone, record (Requested (mkRequest "post" url None (Some ∅) ∅)) w).
Proof.
  cbn zeta. split.
  - exact (proj1 (api_wrapper_payload
                    (λ _, Return (mkResponse (Return (PyDict [("test", PyStr "me")]))))
                    "get" "https://openapi.shl.se/seasons/2022/games.json" ∅ ∅ ∅
                    (mkWorld (init "test" "test" ["HV71"]) []))
             eq_refl (mkResponse (Return (PyDict [("test", PyStr "me")])))
             (PyDict [("test", PyStr "me")]) eq_refl eq_refl).
  - simple refine (proj2 (proj2 (proj2 (api_wrapper_payload
                    (λ _, Return (mkResponse (Return (PyDict [("test", PyStr "me")]))))
                    "post" "https://openapi.shl.se/seasons/2022/games.json" ∅ ∅ ∅
                    (mkWorld (init "test" "test" ["HV71"]) [])) _))
             (mkResponse (Return (PyDict [("test", PyStr "me")]))) eq_refl).
    compute_done.
Defined.

Lemma api_wrapper_unknown_method_witness :
  api_wrapper (λ _, Raise (mkExn ClientError "unreachable")) "GET"
    "https://openapi.shl.se/teams.json" ∅ ∅ ∅
    (mkWorld (init "test" "test" ["HV71"]) [])
  = (Return PyNone, mkWorld (init "test" "test" ["HV71"]) []).
Proof.
  apply (api_wrapper_unknown_method
           (λ _, Raise (mkExn ClientError "unreachable")) "GET"
           "https://openapi.shl.se/teams.json" ∅ ∅ ∅
           (mkWorld (init "test" "test" ["HV71"]) [])).
  compute_done.
Defined.

Lemma generate_url_spec_witness :
  generate_url "teams.json" 2021
  = BASE_URL +:+ "/seasons/" +:+ "2021" +:+ "/" +:+ "teams.json".
Proof.
  apply (proj1 generate_url_spec "teams.json" 2021). discriminate.
Defined.

Lemma async_connect_failed_exchange_raises_witness :
  let session : request → result response :=
    λ _, Raise (mkExn TimeoutError "") in
  let w := mkWorld (init "test" "test" ["HV71"]) [] in
  ∃ msg,
    async_connect session 0 w
    = (Raise none_not_subscriptable,
       record (Logged msg) (record (Requested (token_request (client w))) w))
    ∧ String.prefix "Timeout error fetching information from" msg = true.
Proof.
  cbn zeta.
  apply (async_connect_failed_exchange_raises
           (λ _, Raise (mkExn TimeoutError "")) 0
           (mkWorld (init "test" "test" ["HV71"]) [])
           (mkExn TimeoutError "") eq_refl eq_refl).
Defined.

(** * Further properties *)

(** ** What one call of the request executor can do *)

(** X11.  A call of [api_wrapper] places at most one request and writes at
    most one log record; it writes one only after a request, and then
    returns [None]; and what it raises, if anything, is no [Exception]. *)
Theorem api_wrapper_bounds session method url data headers params w :
  let out := api_wrapper session method url data headers params w in
  ∃ reqs logs,
    requests (trace out.2) = requests (trace w) ++ reqs
    ∧ logged (trace out.2) = logged (trace w) ++ logs
    ∧ (length logs ≤ length reqs ≤ 1)%nat
    ∧ (logs ≠ [] → out.1 = Return PyNone)
    ∧ (∀ e, out.1 = Raise e → isinstance e [Exception] = false).
Proof.
  cbn zeta.
  destruct (api_wrapper_cases session method url data headers params w)
    as [[-> _] | [_ [[v ->] | [[msg ->] | (e & -> & He)]]]]; cbn [fst snd].
  - exists [], []. rewrite !app_nil_r.
    repeat split; try done; cbn; lia.
  - eexists [_], []. rewrite requests_record_Requested, logged_record_Requested,
      app_nil_r. repeat split; try done; cbn; lia.
  - eexists [_], [msg].
    rewrite requests_record_Logged, requests_record_Requested,
      logged_record_Logged, logged_record_Requested.
    repeat split; try done; cbn; lia.
  - eexists [_], []. rewrite requests_record_Requested, logged_record_Requested,
      app_nil_r. repeat split; try done; try (cbn; lia).
    by intros e' [= <-].
Qed.

Lemma caught_log_text url e w :
  isinstance e [Exception] = true →
  caught url e w = (Return PyNone, record (Logged (log_text url e)) w).
Proof.
  destruct e as [c s]. intros He. by destruct c; try discriminate He.
Qed.

(** X13.  When the exchange fails with an [Exception], the log record that
    [api_wrapper] writes is the text of the first clause that matches: the
    clause's message, then the URL and the exception for a timeout, a parse
    error and a network error, and the exception alone, without the URL, for
    any other failure. *)
Theorem api_wrapper_log_text session method url data headers params w e :
  exchange_fails session method
    (request_of (client w) method url data headers params) e →
  isinstance e [Exception] = true →
  logged (trace (api_wrapper session method url data headers params w).2)
  = logged (trace w) ++ [log_text url e].
Proof.
  intros Hfail He. rewrite (api_wrapper_failure _ _ _ _ _ _ _ _ Hfail).
  rewrite caught_log_text by done. cbn [snd].
  by rewrite logged_record_Logged, logged_record_Requested.
Qed.

Lemma api_wrapper_log_text_witness :
  logged (trace (api_wrapper
                   (λ _, Return (mkResponse (Raise (mkExn ValueError "Expecting value"))))
                   "get" "https://openapi.shl.se/teams.json" ∅ ∅ ∅
                   (mkWorld (init "test" "test" ["HV71"]) [])).2)
  = [] ++ ["Something really wrong happened! - Expecting value"].
Proof.
  apply (api_wrapper_log_text
           (λ _, Return (mkResponse (Raise (mkExn ValueError "Expecting value"))))
           "get" "https://openapi.shl.se/teams.json" ∅ ∅ ∅
           (mkWorld (init "test" "test" ["HV71"]) [])
           (mkExn ValueError "Expecting value")).
  - split; [compute_done |]. right. split; [reflexivity |].
    eexists. split; reflexivity.
  - reflexivity.
Defined.

(** ** Connecting, whatever the network does *)

Lemma async_connect_outcome session now w :
  ∃ e w',
    async_connect session now w = (Raise e, w')
    ∧ client w' = client w
    ∧ requests (trace w') = requests (trace w) ++ [token_request (client w)].
Proof.
  rewrite async_connect_post. cbn zeta.
  destruct (session _) as [resp | e].
  - eexists _, _. split; [done |]. split; [done |].
    apply requests_record_Requested.
  - destruct (isinstance e [Exception]) eqn:He.
    + rewrite caught_log_text, async_connect_store_None by done.
      eexists _, _. split; [done |]. split; [done |].
      by rewrite requests_record_Logged, requests_record_Requested.
    + rewrite caught_BaseException by done.
      eexists _, _. split; [done |]. split; [done |].
      apply requests_record_Requested.
Qed.

(** X1.  [async_connect] never returns: for every behaviour of the session
    and at every instant it places exactly one request, the token POST with
    the client's credentials as the body and the bare user agent as the
    header set, and then raises, leaving the client as it was. *)
Theorem async_connect_always_raises session now w :
  ∃ e w',
    async_connect session now w = (Raise e, w')
    ∧ client w' = client w
    ∧ requests (trace w') = requests (trace w) ++ [token_request (client w)]
    ∧ req_verb (token_request (client w)) = "post"
    ∧ req_url (token_request (client w)) = "https://openapi.shl.se/oauth2/token"
    ∧ req_headers (token_request (client w)) = Some {[ "User-Agent" := "SHL/0.0.1" ]}
    ∧ req_json (token_request (client w))
      = Some {[ "client_id" := _client_id (client w);
                "client_secret" := _client_secret (client w);
                "grant_type" := "client_credentials" ]}.
Proof.
  destruct (async_connect_outcome session now w) as (e & w' & ? & ? & ?).
  exists e, w'. by repeat split.
Qed.


(** ** Requests of the typed operations *)

Lemma emits_ret {A} Q (a : A) : emits Q (mret a).
Proof. intros w. split; [done |]. exists []. by rewrite app_nil_r. Qed.

Lemma emits_lift {A} Q (r : result A) : emits Q (lift r).
Proof. intros w. split; [done |]. exists []. by rewrite app_nil_r. Qed.

Lemma emits_gets {A} Q (f : Client → A) : emits Q (gets f).
Proof. intros w. split; [done |]. exists []. by rewrite app_nil_r. Qed.

Lemma emits_bind {A B} Q (m : M A) (f : A → M B) :
  emits Q m → (∀ a, emits Q (f a)) → emits Q (m ≫= f).
Proof.
  intros Hm Hf w. unfold mbind, M_bind.
  destruct (Hm w) as (Hc & new & Hreq & Hnew).
  destruct (m w) as [[a | e] w1]; cbn [snd] in *; [| by eauto].
  destruct (Hf a w1) as (Hc' & new' & Hreq' & Hnew').
  split; [congruence |]. exists (new ++ new').
  rewrite Hreq', Hreq, Hc in *. rewrite app_assoc. split; [done |].
  by apply Forall_app.
Qed.

Lemma emits_if {A} Q (b : bool) (m1 m2 : M A) :
  emits Q m1 → emits Q m2 → emits Q (if b then m1 else m2).
Proof. by destruct b. Qed.

Lemma emits_api_wrapper Q session method url data headers params :
  (∀ c, method ∈ verbs → Q c (request_of c method url data headers params)) →
  emits Q (api_wrapper session method url data headers params).
Proof.
  intros HQ w. split; [apply preserves_api_wrapper |].
  destruct (decide (method ∈ verbs)) as [Hm | Hm].
  - eexists [_]. rewrite api_wrapper_requests by done. split; [done |].
    repeat constructor. by apply HQ.
  - rewrite api_wrapper_other by done. exists []. by rewrite app_nil_r.
Qed.

Lemma emits_async_connect Q session now :
  (∀ c, Q c (token_request c)) → emits Q (async_connect session now).
Proof.
  intros HQ w.
  destruct (async_connect_outcome session now w) as (e & w' & -> & Hc & Hr).
  split; [done |]. eexists [_]. split; [done |]. by repeat constructor.
Qed.

Lemma emits_is_connected Q now : emits Q (is_connected now).
Proof.
  intros w. rewrite is_connected_run. split; [done |].
  exists []. by rewrite app_nil_r.
Qed.

(** Each single fetch is one GET through [api_wrapper], with the default
    [data] and [headers], at a URL that [generate_url] built. *)
Lemma single_fetch_get session op :
  single_fetch op = true →
  ∃ query season (params : Client → dict), ∀ w,
    perform session op w
    = api_wrapper session "get" (generate_url query season) ∅ ∅
        (params (client w)) w.
Proof.
  destruct op as [ids | season ids | season mid | season stat ids
                 | season stat ids | | season ids | code | ids | | ];
    try discriminate; intros _.
  - exists "articles", 0,
      (λ _, if list_truthy ids then {[ "teamIds" := String.concat "," ids ]} else ∅).
    intros w. cbn [perform]. unfold async_get_articles. by destruct ids.
  - exists "games", season,
      (λ c, if list_truthy ids
            then {[ "teamIds" := String.concat "," (_team_ids c) ]} else ∅).
    intros w. cbn [perform]. unfold async_get_games. by destruct ids.
  - by exists ("games/" +:+ mid +:+ ".json"), season, (λ _, ∅).
  - by exists "statistics/players.json", season,
      (λ _, if list_truthy ids
            then <[ "team_ids" := String.concat "," ids ]> {[ "sort" := stat ]}
            else {[ "sort" := stat ]}).
  - by exists "statistics/goalkeepers.json", season,
      (λ _, if list_truthy ids
            then <[ "team_ids" := String.concat "," ids ]> {[ "sort" := stat ]}
            else {[ "sort" := stat ]}).
  - by exists "teams.json", 0, (λ _, ∅).
  - exists "statistics/teams/standings.json", season,
      (λ _, if list_truthy ids then {[ "team_ids" := String.concat "," ids ]} else ∅).
    intros w. cbn [perform]. unfold async_get_team_stats. by destruct ids.
  - by exists ("teams/" +:+ code +:+ ".json"), 0, (λ _, ∅).
  - exists "videos.json", 0,
      (λ _, if list_truthy ids then {[ "team_ids" := String.concat "," ids ]} else ∅).
    intros w. cbn [perform]. unfold async_get_videos. by destruct ids.
Qed.

Lemma prefix_append (s t : string) : String.prefix s (s +:+ t) = true.
Proof.
  induction s as [| a s IH]; [by destruct t |].
  change (String a s +:+ t) with (String a (s +:+ t)).
  cbn [String.prefix].
  destruct (Ascii.ascii_dec a a); [exact IH | congruence].
Qed.

Lemma generate_url_on_host query season :
  String.prefix (BASE_URL +:+ "/") (generate_url query season) = true.
Proof.
  unfold generate_url. destruct (truthy (PyInt season)).
  - change (BASE_URL +:+ "/seasons/" +:+ pretty season +:+ "/" +:+ query)
      with ((BASE_URL +:+ "/") +:+ ("seasons/" +:+ pretty season +:+ "/" +:+ query)).
    apply prefix_append.
  - change (BASE_URL +:+ "/" +:+ query) with ((BASE_URL +:+ "/") +:+ query).
    apply prefix_append.
Qed.

(** X5.  Each of the nine typed fetch operations places exactly one request:
    a GET without a body, addressed to the API host, with the header set the
    client holds.  It returns what the body of the response decodes to,
    returns [None] and logs once when the exchange fails with an
    [Exception], and raises no [Exception] itself. *)
Theorem typed_fetch_contract session op w :
  single_fetch op = true →
  let out := perform session op w in
  ∃ r,
    requests (trace out.2) = requests (trace w) ++ [r]
    ∧ req_verb r = "get" ∧ req_json r = None
    ∧ req_headers r = _headers (client w)
    ∧ on_host r
    ∧ (∀ resp v, session r = Return resp → json resp = Return v →
         out.1 = Return v ∧ logged (trace out.2) = logged (trace w))
    ∧ (∀ e, exchange_fails session "get" r e → isinstance e [Exception] = true →
         out.1 = Return PyNone
         ∧ ∃ msg, logged (trace out.2) = logged (trace w) ++ [msg])
    ∧ (∀ e, out.1 = Raise e → isinstance e [Exception] = false).
Proof.
  intros Hop. destruct (single_fetch_get session op Hop)
    as (query & season & params & Hrun). cbn zeta. rewrite Hrun.
  exists (request_of (client w) "get" (generate_url query season) ∅ ∅
            (params (client w))).
  split; [by apply api_wrapper_requests; compute_done |].
  do 4 (split; [done || apply generate_url_on_host |]).
  split; [| split].
  - intros resp v Hs Hj.
    rewrite api_wrapper_verb by compute_done. cbn zeta.
    rewrite Hs. cbn [String.eqb Ascii.eqb Bool.eqb]. rewrite Hj.
    split; [done |]. apply logged_record_Requested.
  - intros e Hfail He. rewrite (api_wrapper_failure _ _ _ _ _ _ _ _ Hfail).
    rewrite caught_log_text by done. split; [done |]. eexists. cbn [snd].
    by rewrite logged_record_Logged, logged_record_Requested.
  - intros e.
    destruct (api_wrapper_cases session "get" (generate_url query season) ∅ ∅
                (params (client w)) w)
      as [[-> _] | [_ [[v ->] | [[msg ->] | (e' & -> & He')]]]]; try done.
    by intros [= <-].
Qed.

Lemma typed_fetch_contract_witness :
  let session : request → result response :=
    λ _, Return (mkResponse (Return (PyList [PyDict [("team_code", PyStr "HV71")]]))) in
  let w := mkWorld (init "test" "test" ["HV71"]) [] in
  let out := perform session GetTeams w in
  ∃ r,
    requests (trace out.2) = [] ++ [r]
    ∧ req_verb r = "get" ∧ req_json r = None
    ∧ req_headers r = None
    ∧ on_host r
    ∧ (∀ resp v, session r = Return resp → json resp = Return v →
         out.1 = Return v ∧ logged (trace out.2) = [])
    ∧ (∀ e, exchange_fails session "get" r e → isinstance e [Exception] = true →
         out.1 = Return PyNone
         ∧ ∃ msg, logged (trace out.2) = [] ++ [msg])
    ∧ (∀ e, out.1 = Raise e → isinstance e [Exception] = false).
Proof.
  exact (typed_fetch_contract
           (λ _, Return (mkResponse (Return (PyList [PyDict [("team_code", PyStr "HV71")]]))))
           GetTeams (mkWorld (init "test" "test" ["HV71"]) []) eq_refl).
Defined.

(** ** Sequences of calls *)

Lemma emits_perform Q session op :
  (∀ c query season params,
      Q c (request_of c "get" (generate_url query season) ∅ ∅ params)) →
  typed_call (Perform op) = true →
  emits Q (perform session op).
Proof.
  intros HQ Hop.
  assert (∀ op', single_fetch op' = true → emits Q (perform session op')) as H1.
  { intros op' Hs w.
    destruct (single_fetch_get session op' Hs) as (query & season & params & ->).
    apply emits_api_wrapper. intros c _. apply HQ. }
  destruct (single_fetch op) eqn:Hs; [by apply H1 |].
  destruct op; try discriminate. cbn [perform]. unfold async_get_data.
  apply emits_bind; [exact (H1 (GetGames season team_ids) eq_refl) |]. intros games.
  apply emits_bind; [exact (H1 (GetArticles team_ids) eq_refl) |]. intros articles.
  repeat (apply emits_bind; [apply emits_lift |]; intros).
  apply emits_ret.
Qed.

Lemma emits_invoke Q s :
  (∀ c, Q c (token_request c)) →
  (∀ c query season params,
      Q c (request_of c "get" (generate_url query season) ∅ ∅ params)) →
  typed_call (step_call s) = true →
  emits Q (invoke s).
Proof.
  intros Htoken Hget Hs. unfold invoke. destruct (step_call s) as [| | op].
  - by apply emits_async_connect.
  - apply emits_is_connected.
  - by apply emits_perform.
Qed.

Lemma invoke_preserves_client s w : client (invoke s w).2 = client w.
Proof.
  unfold invoke. destruct (step_call s) as [| | op].
  - by destruct (async_connect_outcome (step_session s) (step_now s) w)
      as (e & w' & -> & ? & _).
  - by rewrite is_connected_run.
  - apply preserves_perform.
Qed.

Lemma run_preserves_client steps w : client (run steps w) = client w.
Proof.
  revert w. induction steps as [| s steps IH]; intros w; [done |].
  cbn. unfold run in IH. by rewrite IH, invoke_preserves_client.
Qed.

Lemma run_emits Q steps w :
  (∀ c, Q c (token_request c)) →
  (∀ c query season params,
      Q c (request_of c "get" (generate_url query season) ∅ ∅ params)) →
  Forall (λ s, typed_call (step_call s) = true) steps →
  ∃ new, requests (trace (run steps w)) = requests (trace w) ++ new
         ∧ Forall (Q (client w)) new.
Proof.
  intros Htoken Hget Hsteps. revert w.
  induction Hsteps as [| s steps Hs _ IH]; intros w.
  - exists []. by rewrite app_nil_r.
  - cbn. fold (run steps (invoke s w).2).
    destruct (emits_invoke Q s Htoken Hget Hs w) as (Hc & new & Hreq & Hnew).
    destruct (IH (invoke s w).2) as (new' & Hreq' & Hnew').
    exists (new ++ new'). rewrite Hreq', Hreq, app_assoc. split; [done |].
    apply Forall_app. split; [done |]. by rewrite <- Hc.
Qed.

(** X8.  No sequence of calls of the client's methods, against any network
    and at any instants, changes the client object.  A client that the
    constructor built therefore still reports that it is not connected
    after any use, [async_connect] included. *)
Theorem client_never_connects steps :
  (∀ w, client (run steps w) = client w)
  ∧ (∀ client_id client_secret team_ids now,
       let w := run steps (mkWorld (init client_id client_secret team_ids) []) in
       ∃ v, is_connected now w = (Return v, w) ∧ truthy v = false).
Proof.
  split; [apply run_preserves_client |].
  intros client_id client_secret team_ids now. cbn zeta.
  eexists. split; [apply is_connected_run |].
  by rewrite run_preserves_client.
Qed.

(** X9.  However a client that the constructor built is used through
    [async_connect], [is_connected] and the typed fetch operations, every
    request it places is either the token POST or a GET with no header set
    at all; so no request carries an [Authorization] header. *)
Theorem requests_never_authorized steps client_id client_secret team_ids :
  Forall (λ s, typed_call (step_call s) = true) steps →
  let c := init client_id client_secret team_ids in
  Forall (λ r, (r = token_request c ∨ req_verb r = "get" ∧ req_headers r = None)
               ∧ ∀ h, req_headers r = Some h → h !! "Authorization" = None)
    (requests (trace (run steps (mkWorld c [])))).
Proof.
  intros Hsteps c.
  destruct (run_emits
              (λ c r, r = token_request c
                      ∨ req_verb r = "get" ∧ req_headers r = _headers c)
              steps (mkWorld c []))
    as (new & -> & Hnew); [by left | by right | done |].
  cbn [trace requests omap app client] in *.
  eapply Forall_impl; [exact Hnew |]. cbn beta.
  intros r [-> | [Hv Hh]].
  - split; [by left |]. by intros h [= <-].
  - split; [by right |]. intros h. by rewrite Hh.
Qed.

Lemma requests_never_authorized_witness :
  let steps :=
    [ mkStep Connect (token_endpoint 1800 "T") 0;
      mkStep (Perform (GetGames 2022 ["HV71"])) (token_endpoint 1800 "T") 1 ] in
  let c := init "test" "test" ["HV71"] in
  Forall (λ r, (r = token_request c ∨ req_verb r = "get" ∧ req_headers r = None)
               ∧ ∀ h, req_headers r = Some h → h !! "Authorization" = None)
    (requests (trace (run steps (mkWorld c [])))).
Proof.
  apply (requests_never_authorized
           [ mkStep Connect (token_endpoint 1800 "T") 0;
             mkStep (Perform (GetGames 2022 ["HV71"])) (token_endpoint 1800 "T") 1 ]
           "test" "test" ["HV71"]).
  repeat constructor.
Defined.

(** X6.  Every request that [async_connect] and the typed fetch operations
    place is addressed to the API host: its URL begins with the base URL and
    a slash, whatever season, match identifier or team code it is given. *)
Theorem requests_stay_on_host s w :
  typed_call (step_call s) = true →
  ∃ new, requests (trace (invoke s w).2) = requests (trace w) ++ new
         ∧ Forall on_host new.
Proof.
  intros Hs.
  assert (∀ c : Client, on_host (token_request c)) as Htoken by done.
  assert (∀ (c : Client) query season params,
             on_host (request_of c "get" (generate_url query season) ∅ ∅ params))
    as Hget by (intros; apply generate_url_on_host).
  destruct (emits_invoke (λ _, on_host) s Htoken Hget Hs w)
    as (_ & new & Hreq & Hnew).
  by exists new.
Qed.

Lemma requests_stay_on_host_witness :
  let s := mkStep (Perform (GetGame 2022 "../../admin"))
             (λ _, Raise (mkExn ClientError "not found")) 0 in
  ∃ new, requests (trace (invoke s (mkWorld (init "test" "test" []) [])).2)
         = [] ++ new
         ∧ Forall on_host new.
Proof.
  exact (requests_stay_on_host
           (mkStep (Perform (GetGame 2022 "../../admin"))
              (λ _, Raise (mkExn ClientError "not found")) 0)
           (mkWorld (init "test" "test" []) []) eq_refl).
Defined.

(** ** Parameters of the scoped and sorted fetches *)

(** X3.  Each of the six team-scoped fetch operations places one GET.  With
    an empty list of identifiers the request has no scoping parameter; with
    identifiers it has one, named [teamIds] for articles and games and
    [team_ids] for the others, whose value is the identifiers joined by
    commas: those of the argument, except in [async_get_games], which joins
    the identifiers of the client instead. *)
Theorem scoped_fetch_request session f team_ids w :
  ∃ r,
    requests (trace (fetch_scoped session f team_ids w).2)
    = requests (trace w) ++ [r]
    ∧ req_verb r = "get"
    ∧ req_params r !! scoping_key f
      = match team_ids with
        | [] => None
        | _ => Some (String.concat ","
                       match f with
                       | Games _ => _team_ids (client w)
                       | _ => team_ids
                       end)
        end.
Proof.
  destruct f, team_ids as [| t ts]; cbn [fetch_scoped];
    unfold async_get_articles, async_get_games, async_get_player_stats,
      async_get_goalie_stats, async_get_team_stats, async_get_videos,
      mbind, M_bind, gets;
    cbn [list_truthy]; cbn zeta; cbn [fst snd];
    rewrite api_wrapper_requests by compute_done;
    (eexists; split; [reflexivity |]; split; [reflexivity |]);
    cbn [request_of req_params scoping_key]; by simplify_map_eq.
Qed.

(** X4.  The two statistics fetches pass the sort key through as given, with
    no validation: the request always has the parameter [sort] with exactly
    that value, the scoping never replaces it, and the only other parameter
    the request can have is [team_ids]. *)
Theorem stats_sort_passthrough session season stat team_ids w :
  ∀ m, m = async_get_player_stats session season stat team_ids
       ∨ m = async_get_goalie_stats session season stat team_ids →
  ∃ r,
    requests (trace (m w).2) = requests (trace w) ++ [r]
    ∧ req_params r !! "sort" = Some stat
    ∧ ∀ k, k ≠ "sort" → k ≠ "team_ids" → req_params r !! k = None.
Proof.
  intros m [-> | ->];
    unfold async_get_player_stats, async_get_goalie_stats; cbn zeta;
    rewrite api_wrapper_requests by compute_done;
    (eexists; split; [reflexivity |]);
    cbn [request_of req_params];
    (split; [| intros k ? ?]); destruct team_ids; cbn [list_truthy];
    by simplify_map_eq.
Qed.

Lemma stats_sort_passthrough_witness :
  ∃ r,
    requests (trace (async_get_goalie_stats (λ _, Raise (mkExn gaierror "dns"))
                       2022 "no such stat" ["HV71"; "LHC"]
                       (mkWorld (init "test" "test" []) [])).2)
    = [] ++ [r]
    ∧ req_params r !! "sort" = Some "no such stat"
    ∧ ∀ k, k ≠ "sort" → k ≠ "team_ids" → req_params r !! k = None.
Proof.
  exact (stats_sort_passthrough (λ _, Raise (mkExn gaierror "dns"))
           2022 "no such stat" ["HV71"; "LHC"]
           (mkWorld (init "test" "test" []) []) _ (or_intror eq_refl)).
Defined.

(** ** Fetching everything *)

Lemma async_get_games_run session season team_ids w :
  async_get_games session season team_ids w
  = api_wrapper session "get" (generate_url "games" season) ∅ ∅
      (req_params (games_request (client w) season team_ids)) w.
Proof. unfold async_get_games. by destruct team_ids. Qed.

Lemma async_get_articles_run session team_ids w :
  async_get_articles session team_ids w
  = api_wrapper session "get" (generate_url "articles" 0) ∅ ∅
      (req_params (articles_request (client w) team_ids)) w.
Proof. unfold async_get_articles. by destruct team_ids. Qed.

(** Against a session that fails with [Exception]s only, a GET through
    [api_wrapper] always returns: the decoded body, or [None] on a failure. *)
Lemma api_wrapper_get_returns session url params w :
  raises_exceptions_only session →
  let r := request_of (client w) "get" url ∅ ∅ params in
  ∃ v w',
    api_wrapper session "get" url ∅ ∅ params w = (Return v, w')
    ∧ client w' = client w
    ∧ requests (trace w') = requests (trace w) ++ [r]
    ∧ ((∃ e, exchange_fails session "get" r e) → v = PyNone)
    ∧ (∀ resp v0, session r = Return resp → json resp = Return v0 →
         v = v0 ∧ w' = record (Requested r) w).
Proof.
  intros Hs r. specialize (Hs r).
  rewrite api_wrapper_verb by compute_done. cbn zeta. fold r.
  cbn [String.eqb Ascii.eqb Bool.eqb].
  destruct (session r) as [resp | e] eqn:Hsr;
    [destruct (json resp) as [v | e] eqn:Hj |].
  - exists v, (record (Requested r) w). split_and!; [done | done | ..].
    + apply requests_record_Requested.
    + intros (e & _ & [? | (_ & resp' & ? & ?)]); congruence.
    + intros resp' v0 ? ?. split; congruence.
  - rewrite caught_log_text by done. eexists _, _. split_and!; [done | done | | done |].
    + by rewrite requests_record_Logged, requests_record_Requested.
    + intros resp' v0 ? ?. congruence.
  - rewrite caught_log_text by done. eexists _, _. split_and!; [done | done | | done |].
    + by rewrite requests_record_Logged, requests_record_Requested.
    + intros resp' v0 ? ?. congruence.
Qed.

(** X7.  [async_get_data] hands nothing on: when it returns, it returns
    [None].  Against a session that fails with [Exception]s only it places
    its two requests, for the games and then for the articles, whatever
    becomes of the first; if the exchange for the games fails, it raises the
    [TypeError] of iterating over [None] to its caller; if both bodies decode
    to iterable values, it returns [None] and logs nothing. *)
Theorem async_get_data_outcome session season team_ids w :
  let out := async_get_data session season team_ids w in
  let rg := games_request (client w) season team_ids in
  let ra := articles_request (client w) team_ids in
  (∀ v, out.1 = Return v → v = PyNone)
  ∧ (raises_exceptions_only session →
     requests (trace out.2) = requests (trace w) ++ [rg; ra]
     ∧ ((∃ e, exchange_fails session "get" rg e) →
        out.1 = Raise none_not_iterable)
     ∧ (∀ resp_g resp_a vg va,
          session rg = Return resp_g → json resp_g = Return vg →
          session ra = Return resp_a → json resp_a = Return va →
          iterable vg = true → iterable va = true →
          out = (Return PyNone, record (Requested ra) (record (Requested rg) w)))).
Proof.
  cbn zeta. split.
  - unfold async_get_data, mbind, M_bind, lift, mret, M_ret. intros v.
    destruct (async_get_games _ _ _ _) as [[vg | ?] w1]; [| done].
    destruct (async_get_articles _ _ _) as [[va | ?] w2]; [| done].
    destruct (py_iterate vg); [| done]. destruct (py_iterate va); [| done].
    by intros [= <-].
  - intros Hs. unfold async_get_data, mbind, M_bind, lift, mret, M_ret.
    rewrite async_get_games_run.
    destruct (api_wrapper_get_returns session (generate_url "games" season)
                (req_params (games_request (client w) season team_ids)) w Hs)
      as (vg & w1 & -> & Hc1 & Hr1 & Hfail1 & Hok1).
    rewrite async_get_articles_run.
    destruct (api_wrapper_get_returns session (generate_url "articles" 0)
                (req_params (articles_request (client w1) team_ids)) w1 Hs)
      as (va & w2 & -> & Hc2 & Hr2 & Hfail2 & Hok2).
    rewrite Hc1 in *.
    change (request_of (client w) "get" (generate_url "games" season) ∅ ∅
              (req_params (games_request (client w) season team_ids)))
      with (games_request (client w) season team_ids) in *.
    change (request_of (client w) "get" (generate_url "articles" 0) ∅ ∅
              (req_params (articles_request (client w) team_ids)))
      with (articles_request (client w) team_ids) in *.
    split; [| split].
    + assert (requests (trace w2)
              = requests (trace w) ++ [games_request (client w) season team_ids;
                                       articles_request (client w) team_ids])
        as Hreqs by (by rewrite Hr2, Hr1, <- app_assoc).
      by destruct (py_iterate vg); [destruct (py_iterate va) |].
    + intros Hfail. by rewrite (Hfail1 Hfail).
    + intros resp_g resp_a vg' va' Hsg Hjg Hsa Hja Hig Hia.
      destruct (Hok1 _ _ Hsg Hjg) as [-> ->].
      assert (client (record (Requested (games_request (client w) season team_ids)) w)
              = client w) as Hcr by done.
      destruct (Hok2 resp_a va') as [-> ->]; [done | done |].
      by destruct vg', va'.
Qed.

Lemma async_get_data_outcome_witness :
  let session : request → result response :=
    λ _, Raise (mkExn ClientError "Cannot connect to host") in
  let w := mkWorld (init "test" "test" ["HV71"]) [] in
  let out := async_get_data session 2022 ["HV71"] w in
  requests (trace out.2)
  = [] ++ [games_request (client w) 2022 ["HV71"];
           articles_request (client w) ["HV71"]]
  ∧ out.1 = Raise none_not_iterable.
Proof.
  cbn zeta.
  destruct (proj2 (async_get_data_outcome
                     (λ _, Raise (mkExn ClientError "Cannot connect to host"))
                     2022 ["HV71"] (mkWorld (init "test" "test" ["HV71"]) []))
              (λ _, eq_refl)) as (Hreq & Hfail & _).
  split; [exact Hreq |].
  apply Hfail. eexists. split; [compute_done | left; reflexivity].
Defined.

(** ** URLs *)

Lemma length_append (s t : string) :
  String.length (s +:+ t) = (String.length s + String.length t)%nat.
Proof.
  induction s as [| a s IH]; [done |].
  change (String a s +:+ t) with (String a (s +:+ t)). cbn. by rewrite IH.
Qed.

Lemma append_inj_r (s1 s2 t : string) : s1 +:+ t = s2 +:+ t → s1 = s2.
Proof.
  revert s2. induction s1 as [| a s1 IH]; intros [| b s2] H; [done | | |].
  - apply (f_equal String.length) in H.
    rewrite !length_append in H. cbn in H. lia.
  - apply (f_equal String.length) in H.
    rewrite !length_append in H. cbn in H. lia.
  - change (String a s1 +:+ t) with (String a (s1 +:+ t)) in H.
    change (String b s2 +:+ t) with (String b (s2 +:+ t)) in H.
    injection H as -> H. f_equal. by apply IH.
Qed.

Lemma append_longer (s t : string) : s ≠ "" → t ≠ s +:+ t.
Proof.
  intros Hs H. apply (f_equal String.length) in H. rewrite length_append in H.
  destruct s; [done |]. cbn in H. lia.
Qed.

(** X10.  [generate_url] separates its arguments one at a time: for one
    season, different paths give different URLs, and for one path, different
    seasons give different URLs (season zero included, which has no season
    segment). *)
Theorem generate_url_separates :
  (∀ season path1 path2,
      path1 ≠ path2 → generate_url path1 season ≠ generate_url path2 season)
  ∧ (∀ path season1 season2,
      season1 ≠ season2 → generate_url path season1 ≠ generate_url path season2).
Proof.
  split.
  - intros season path1 path2 Hne H. apply Hne. unfold generate_url in H.
    destruct (truthy (PyInt season)).
    + by do 4 apply String.app_inj in H.
    + by do 2 apply String.app_inj in H.
  - intros path season1 season2 Hne H. apply Hne. unfold generate_url in H.
    cbn [truthy] in H.
    destruct (Z.eqb_spec season1 0) as [-> | H1],
             (Z.eqb_spec season2 0) as [-> | H2]; cbn [negb] in H; [done | | |].
    + apply String.app_inj in H.
      change ("/" +:+ path = ("/seasons/" +:+ pretty season2) +:+ ("/" +:+ path)) in H.
      by apply append_longer in H.
    + apply String.app_inj in H. symmetry in H.
      change ("/" +:+ path = ("/seasons/" +:+ pretty season1) +:+ ("/" +:+ path)) in H.
      by apply append_longer in H.
    + do 2 apply String.app_inj in H.
      apply append_inj_r in H. by apply pretty_Z_inj.
Qed.

Lemma generate_url_separates_witness :
  generate_url "games.json" 2022 ≠ generate_url "teams.json" 2022
  ∧ generate_url "games.json" 0 ≠ generate_url "games.json" 2022.
Proof.
  split.
  - apply (proj1 generate_url_separates 2022 "games.json" "teams.json").
    discriminate.
  - apply (proj2 generate_url_separates "games.json" 0 2022). discriminate.
Defined.

(** ** The request that the executor places *)

(** X12.  For each of the four verbs [api_wrapper] hands the URL and the
    query parameters to the session as given.  A header set given with the
    call replaces the stored one as a whole, and the stored one (or none, on
    a client that holds none) is used when no header is given.  A GET never
    carries [data]; the three writing verbs carry it as the JSON body. *)
Theorem api_wrapper_request_shape session method url data headers params w :
  method ∈ verbs →
  ∃ r,
    requests (trace (api_wrapper session method url data headers params w).2)
    = requests (trace w) ++ [r]
    ∧ req_verb r = method ∧ req_url r = url ∧ req_params r = params
    ∧ (headers ≠ ∅ → req_headers r = Some headers)
    ∧ (headers = ∅ → req_headers r = _headers (client w))
    ∧ (method = "get" → req_json r = None)
    ∧ (method ≠ "get" → req_json r = Some data).
Proof.
  intros Hm. rewrite api_wrapper_requests by done. eexists.
  split; [reflexivity |]. cbn [request_of req_verb req_url req_params
                               req_headers req_json].
  split_and!; try done.
  - intros Hh. unfold effective_headers.
    by rewrite (proj2 (dict_truthy_true headers) Hh).
  - by intros ->.
  - by intros ->.
  - intros Hne. by rewrite (proj2 (String.eqb_neq method "get") Hne).
Qed.

Lemma api_wrapper_request_shape_witness :
  ∃ r,
    requests (trace (api_wrapper (token_endpoint 1800 "T") "patch"
                       "https://openapi.shl.se/teams.json"
                       {[ "name" := "HV71" ]} {[ "Accept" := "*/*" ]} ∅
                       (mkWorld (init "test" "test" []) [])).2)
    = [] ++ [r]
    ∧ req_verb r = "patch" ∧ req_url r = "https://openapi.shl.se/teams.json"
    ∧ req_params r = ∅
    ∧ (({[ "Accept" := "*/*" ]} : dict) ≠ ∅ → req_headers r = Some {[ "Accept" := "*/*" ]})
    ∧ (({[ "Accept" := "*/*" ]} : dict) = ∅ → req_headers r = None)
    ∧ ("patch" = "get" → req_json r = None)
    ∧ ("patch" ≠ "get" → req_json r = Some {[ "name" := "HV71" ]}).
Proof.
  apply (api_wrapper_request_shape (token_endpoint 1800 "T") "patch"
           "https://openapi.shl.se/teams.json"
           {[ "name" := "HV71" ]} {[ "Accept" := "*/*" ]} ∅
           (mkWorld (init "test" "test" []) [])).
  compute_done.
Defined.
